(** * Rapid Photo Downloader: translation bootstrap and toggle panel

    A shallow embedding of [raphodo/__init__.py] (location of the locale
    directory and installation of the gettext catalog) and of
    [raphodo/ui/toggleview.py] (the [QToggleView] widget), with the
    properties of both that the specification states. *)

From Stdlib Require Import ZArith String Ascii List Bool Lia.
From stdpp Require Import base option gmap strings.
Import ListNotations.

Local Open Scope string_scope.
Local Open Scope list_scope.
Local Open Scope Z_scope.

(** ** Python values used by both files *)

(** Exceptions deriving from [Exception] that the modelled code can meet,
    by class. *)
Inductive exception : Type :=
  | AssertionError
  | FileNotFoundError
  | OSError
  | OtherException (cls : string).

(** The outcome of a call that can raise. *)
Inductive result (A : Type) : Type :=
  | Ok (a : A)
  | Raise (e : exception).
Arguments Ok {A} a.
Arguments Raise {A} e.

Definition result_bind {A B : Type} (r : result A) (k : A -> result B) : result B :=
  match r with
  | Ok a => k a
  | Raise e => Raise e
  end.

Notation "'let*' x ':=' r 'in' k" := (result_bind r (fun x => k))
  (at level 10, x pattern, r at level 200, k at level 200).

(** ** [str] methods *)

Module Str.

(** [s.startswith(p)] *)
Fixpoint startswith (s p : string) {struct p} : bool :=
  match p with
  | EmptyString => true
  | String c p' =>
      match s with
      | String d s' => if Ascii.eqb c d then startswith s' p' else false
      | EmptyString => false
      end
  end.

(** [s.endswith(p)] for a one character [p]. *)
Fixpoint endswith_char (s : string) (c : ascii) : bool :=
  match s with
  | EmptyString => false
  | String d EmptyString => Ascii.eqb d c
  | String _ s' => endswith_char s' c
  end.

(** The lowest index at which [sub] occurs in [s], if any. *)
Fixpoint lowest_index (s sub : string) : option nat :=
  if startswith s sub then Some 0%nat
  else match s with
       | EmptyString => None
       | String _ s' => option_map S (lowest_index s' sub)
       end.

(** [s.find(sub)]: the lowest index of [sub] in [s], or -1. *)
Definition find (s sub : string) : Z :=
  match lowest_index s sub with
  | Some i => Z.of_nat i
  | None => -1
  end.

(** [sub in s], as a proposition: [s] splits around an occurrence. *)
Definition contains (s sub : string) : Prop :=
  exists before after : string, s = before +:+ (sub +:+ after).

End Str.

(** ** [os.path] on POSIX and the process environment *)

Module Os.

Definition sep : string := "/".

(** One round of the loop of [posixpath.join]. *)
Definition join_step (path b : string) : string :=
  if Str.startswith b sep then b
  else if (String.eqb path "" || Str.endswith_char path "/")%bool then path +:+ b
  else path +:+ (sep +:+ b).

(** [os.path.join(a, *p)] *)
Definition join (a : string) (p : list string) : string :=
  fold_left join_step p a.

(** What [stat] tells about a path. The modification time is a finite
    double; it is kept as the integer count of the smallest double
    spacing, which orders timestamps as the doubles do and sends [0.0]
    to [0]. [readable] is the answer of [os.access(path, R_OK)]. *)
Inductive file_type : Type := Directory | Regular | Special.

Record inode : Type := {
  st_type : file_type;
  readable : bool;
  st_mtime : Z
}.

(** A filesystem state: the inode each path string resolves to. *)
Definition filesystem : Type := string -> option inode.

Definition isdir (fs : filesystem) (p : string) : bool :=
  match fs p with
  | Some {| st_type := Directory |} => true
  | _ => false
  end.

Definition isfile (fs : filesystem) (p : string) : bool :=
  match fs p with
  | Some {| st_type := Regular |} => true
  | _ => false
  end.

(** [Path(p).is_dir()]: [pathlib] keeps [p] in normal form, an empty
    [p] as the current directory, and asks [stat] about that; the
    answer of the filesystem at [p] is read as the answer for the path
    [Path] keeps. *)
Definition Path_is_dir (fs : filesystem) (p : string) : bool := isdir fs p.

(** [os.access(p, os.R_OK)] *)
Definition access_R_OK (fs : filesystem) (p : string) : bool :=
  match fs p with
  | Some i => readable i
  | None => false
  end.

(** [os.path.getmtime(p)] raises [OSError] when [stat] fails. *)
Definition getmtime (fs : filesystem) (p : string) : result Z :=
  match fs p with
  | Some i => Ok (st_mtime i)
  | None => Raise OSError
  end.

(** [os.environ] *)
Abbreviation environ := (gmap string string).

(** [os.getenv(key)] *)
Definition getenv (env : environ) (key : string) : option string := env !! key.

(** [os.getenv(key, default)] *)
Definition getenv_default (env : environ) (key default : string) : string :=
  match env !! key with
  | Some v => v
  | None => default
  end.

End Os.

(** ** [raphodo/__init__.py] *)

Module Raphodo.

Definition i18n_domain : string := "rapid-photo-downloader".

(** [sample_translation()]: the Spanish catalog, relative to a locale
    directory. *)
Definition sample_translation : string :=
  let mo_file := i18n_domain +:+ ".mo" in
  Os.join "es" ["LC_MESSAGES"; mo_file].

(** The body of the [for path in (data_home, "/usr/share")] loop:
    [acc] is the pair of the variables [locale_mtime] and [locale_dir]. *)
Definition candidate_step (fs : Os.filesystem) (sample_lang_path : string)
    (acc : result (Z * option string)) (path : string)
    : result (Z * option string) :=
  let* (locale_mtime, locale_dir) := acc in
  let locale_path := Os.join path ["locale"] in
  let sample_path := Os.join locale_path [sample_lang_path] in
  let* newer :=
    (if Os.isfile fs sample_path then
       if Os.access_R_OK fs sample_path then
         let* mtime := Os.getmtime fs sample_path in
         Ok (locale_mtime <? mtime)
       else Ok false
     else Ok false) in
  if (newer : bool) then Ok (locale_mtime, Some locale_path)
  else Ok (locale_mtime, locale_dir).

(** Lines 64 to 80 of [locale_directory]: the comparison of the
    candidate roots. [data_home] is what
    [QStandardPaths.writableLocation(GenericDataLocation)] answers. *)
Definition compare_candidates (fs : Os.filesystem) (data_home : string)
    : result (option string) :=
  let sample_lang_path := sample_translation in
  let locale_mtime := 0 in
  let locale_dir : option string := None in
  if Os.Path_is_dir fs data_home then
    let* (_, locale_dir) :=
      fold_left (candidate_step fs sample_lang_path)
                [data_home; "/usr/share"]
                (Ok (locale_mtime, locale_dir)) in
    Ok locale_dir
  else Raise AssertionError.

(** [locale_directory()] *)
Definition locale_directory (env : Os.environ) (fs : Os.filesystem)
    (data_home : string) : result (option string) :=
  let snap_name := Os.getenv_default env "SNAP_NAME" "" in
  if 0 <=? Str.find snap_name "rapid-photo-downloader" then
    let snap_dir := Os.getenv_default env "SNAP" "" in
    Ok (Some (Os.join snap_dir ["/usr/lib/locale"]))
  else
    match Os.getenv env "RPD_I18N_DIR" with
    | Some locale_dir =>
        if Os.isdir fs locale_dir then Ok (Some locale_dir)
        else compare_candidates fs data_home
    | None => compare_candidates fs data_home
    end.

(** [no_translation_performed(s)] *)
Definition no_translation_performed (s : string) : string := s.

(** What the module reads from outside the process at import time:
    the environment, the filesystem, the answer of [QStandardPaths],
    the value [QSettings] holds for [Display/language], the answer of
    [locale.getdefaultlocale()], and the outcome of
    [gettext.translation(domain, localedir, languages)]: the [gettext]
    lookup of the catalog it loads, or the exception it raises. *)
Record startup : Type := {
  environ : Os.environ;
  files : Os.filesystem;
  data_home : string;
  settings_language : string;
  getdefaultlocale : result (option string * option string);
  translation : string -> string -> list (option string)
                -> result (string -> string)
}.

(** The module globals once the import is over, with the builtin [_]. *)
Record globals : Type := {
  localedir : option string;
  lang : option string;
  lang_installed : bool;
  builtins_underscore : option (string -> string)
}.

(** The [try] statement of lines 113 to 122, from the globals [g]
    before it. *)
Definition try_install (io : startup) (dir : string) (g : globals) : globals :=
  match translation io i18n_domain dir [lang g] with
  | Ok gnulang =>
      (* gnulang.install(); lang_installed = True *)
      {| localedir := localedir g; lang := lang g; lang_installed := true;
         builtins_underscore := Some gnulang |}
  | Raise FileNotFoundError => g
  | Raise _ => g
  end.

(** Lines 105 to 111: the language of the preferences, or the default
    locale when the preference is empty. *)
Definition choose_language (io : startup) : result (option string) :=
  let lang := settings_language io in
  if String.eqb lang "" then
    let* (lang, encoding) := getdefaultlocale io in Ok lang
  else Ok (Some lang).

(** The statements of the module, lines 96 to 127. [underscore] is the
    builtin [_] before the import, if there is one. *)
Definition module_init (io : startup) (underscore : option (string -> string))
    : result globals :=
  let* localedir := locale_directory (environ io) (files io) (data_home io) in
  let g0 := {| localedir := localedir; lang := None; lang_installed := false;
               builtins_underscore := underscore |} in
  let* g1 :=
    match localedir with
    | Some dir =>
        if Os.isfile (files io) (Os.join dir [sample_translation]) then
          let* lang := choose_language io in
          Ok (try_install io dir
                {| localedir := localedir; lang := lang; lang_installed := false;
                   builtins_underscore := underscore |})
        else Ok g0
    | None => Ok g0
    end in
  if negb (lang_installed g1) then
    Ok {| localedir := Raphodo.localedir g1; lang := Raphodo.lang g1;
          lang_installed := lang_installed g1;
          builtins_underscore := Some no_translation_performed |}
  else Ok g1.

(** The text lookup every other module calls as [_(s)] after the
    import: [None] stands for the [NameError] of a missing builtin. *)
Definition translate (g : globals) (s : string) : option string :=
  match builtins_underscore g with
  | Some f => Some (f s)
  | None => None
  end.

(** *** The resolution rule as the docstring and the specification word it

    Among the candidates whose sample file exists and is readable, the
    one whose sample file has the most recent modification time; none
    if no candidate qualifies. *)

(** The path of the sample catalog under a candidate root. *)
Definition sample_path_of (root : string) : string :=
  Os.join (Os.join root ["locale"]) [sample_translation].

(** The sample file of the candidate exists and is readable. *)
Definition qualifies (fs : Os.filesystem) (root : string) : bool :=
  Os.isfile fs (sample_path_of root) && Os.access_R_OK fs (sample_path_of root).

(** The modification time of the sample file of the candidate. *)
Definition sample_mtime (fs : Os.filesystem) (root : string) : Z :=
  match fs (sample_path_of root) with
  | Some i => Os.st_mtime i
  | None => 0
  end.

Definition newest_candidate (fs : Os.filesystem) (user_root system_root : string)
    : option string :=
  match qualifies fs user_root, qualifies fs system_root with
  | true, true =>
      if sample_mtime fs system_root <? sample_mtime fs user_root
      then Some (Os.join user_root ["locale"])
      else Some (Os.join system_root ["locale"])
  | true, false => Some (Os.join user_root ["locale"])
  | false, true => Some (Os.join system_root ["locale"])
  | false, false => None
  end.

End Raphodo.

(** ** The Qt side of [raphodo/ui/toggleview.py] *)

Module Qt.

(** A [QWidget] object, by identity. *)
Definition widget : Type := nat.

Record QSize : Type := { width : Z; height : Z }.

(** A [QColor], by name. *)
Definition QColor : Type := string.

(** The toolkit's state: for every widget that exists, the visibility
    it was last given ([setVisible], hidden until then); the current
    geometry of the widgets; what [QWidget.minimumSize()] answers for
    the panel after a given number of geometry passes; and the number of
    [updateGeometry()] calls so far. *)
Record toolkit : Type := {
  visible : gmap widget bool;
  geometry : widget -> QSize;
  layout_minimumSize : nat -> QSize;
  geometry_updates : nat
}.

(** [QWidget()]: a new object, distinct from every existing one. *)
Definition new_widget (t : toolkit) : widget * toolkit :=
  let w := fresh (dom (visible t)) in
  (w, {| visible := <[w := false]> (visible t);
         geometry := geometry t;
         layout_minimumSize := layout_minimumSize t;
         geometry_updates := geometry_updates t |}).

(** [w.setVisible(b)] *)
Definition setVisible (w : widget) (b : bool) (t : toolkit) : toolkit :=
  {| visible := <[w := b]> (visible t);
     geometry := geometry t;
     layout_minimumSize := layout_minimumSize t;
     geometry_updates := geometry_updates t |}.

(** [updateGeometry()] *)
Definition updateGeometry (t : toolkit) : toolkit :=
  {| visible := visible t;
     geometry := geometry t;
     layout_minimumSize := layout_minimumSize t;
     geometry_updates := S (geometry_updates t) |}.

(** [QWidget.minimumSize()] of the panel. *)
Definition minimumSize (t : toolkit) : QSize :=
  layout_minimumSize t (geometry_updates t).

End Qt.

(** ** [raphodo/ui/toggleview.py] *)

Module ToggleView.
Import Qt.

(** Modelled from the spec: [QToggleSwitch] of
    [raphodo/ui/toggleswitch.py] is missing. The toggle control holds
    the boolean state, which [on()] reads; [setOn(value)] forces the
    control to [value] and triggers the transition logic as a change by
    the user does. *)
Record QToggleSwitch : Type := {
  switch_widget : widget;
  switch_value : bool;
  background : QColor;
  toolTip : option string
}.

(** Modelled from the spec: [QPanelView] of [raphodo/ui/panelview.py]
    is missing. The base class holds the label and the colours of the
    header, the header region and the widgets added to it, the layout,
    and the content, which is absent until a widget is attached. *)
Record QPanelView : Type := {
  panel_label : string;
  panel_objectName : string;
  panel_headerColor : QColor;
  panel_headerFontColor : option QColor;
  panel_headerMargins : Z * Z * Z * Z;
  panel_header : widget;
  panel_headerWidgets : list widget;
  panel_layout : list widget;
  panel_content : option widget
}.

(** The panel object: the base object, the attributes [QToggleView]
    adds, and the [valueChanged] emissions so far, oldest first. *)
Record QToggleView : Type := {
  base : QPanelView;
  alternateWidget : option widget;
  toggleSwitch : QToggleSwitch;
  valueChanged : list bool
}.

(** The inherited attributes, as [self.content] and the like read them. *)
Definition header (v : QToggleView) : widget := panel_header (base v).
Definition layout (v : QToggleView) : list widget := panel_layout (base v).
Definition content (v : QToggleView) : option widget := panel_content (base v).

(** Methods run on the panel and the toolkit. *)
Definition state : Type := QToggleView * toolkit.
Definition M (A : Type) : Type := state -> A * state.

Definition ret {A : Type} (a : A) : M A := fun s => (a, s).
Definition bind {A B : Type} (m : M A) (k : A -> M B) : M B :=
  fun s => let (a, s') := m s in k a s'.
Definition exec {A : Type} (m : M A) (s : state) : state := snd (m s).
Definition eval {A : Type} (m : M A) (s : state) : A := fst (m s).

Declare Scope panel_scope.
Delimit Scope panel_scope with panel.
Notation "x <- m ;; k" := (bind m (fun x => k))
  (at level 20, m at level 99, k at level 200, only parsing) : panel_scope.
Notation "m ;; k" := (bind m (fun _ => k))
  (at level 100, k at level 200, only parsing, right associativity) : panel_scope.
Local Open Scope panel_scope.

(** Reading an attribute of [self], and the toolkit. *)
Definition attr {A : Type} (f : QToggleView -> A) : M A := fun s => (f (fst s), s).
Definition toolkit_get {A : Type} (f : toolkit -> A) : M A := fun s => (f (snd s), s).
Definition toolkit_do (f : toolkit -> toolkit) : M unit := fun s => (tt, (fst s, f (snd s))).

Definition set_base (p : QPanelView) (v : QToggleView) : QToggleView :=
  {| base := p; alternateWidget := alternateWidget v;
     toggleSwitch := toggleSwitch v; valueChanged := valueChanged v |}.

Definition set_content (c : option widget) (v : QToggleView) : QToggleView :=
  let p := base v in
  set_base
    {| panel_label := panel_label p; panel_objectName := panel_objectName p;
       panel_headerColor := panel_headerColor p;
       panel_headerFontColor := panel_headerFontColor p;
       panel_headerMargins := panel_headerMargins p;
       panel_header := panel_header p;
       panel_headerWidgets := panel_headerWidgets p;
       panel_layout := panel_layout p; panel_content := c |} v.

Definition set_layout (l : list widget) (v : QToggleView) : QToggleView :=
  let p := base v in
  set_base
    {| panel_label := panel_label p; panel_objectName := panel_objectName p;
       panel_headerColor := panel_headerColor p;
       panel_headerFontColor := panel_headerFontColor p;
       panel_headerMargins := panel_headerMargins p;
       panel_header := panel_header p;
       panel_headerWidgets := panel_headerWidgets p;
       panel_layout := l; panel_content := panel_content p |} v.

Definition set_switch_value (b : bool) (v : QToggleView) : QToggleView :=
  {| base := base v; alternateWidget := alternateWidget v;
     toggleSwitch := {| switch_widget := switch_widget (toggleSwitch v);
                        switch_value := b;
                        background := background (toggleSwitch v);
                        toolTip := toolTip (toggleSwitch v) |};
     valueChanged := valueChanged v |}.

Definition set_valueChanged (l : list bool) (v : QToggleView) : QToggleView :=
  {| base := base v; alternateWidget := alternateWidget v;
     toggleSwitch := toggleSwitch v; valueChanged := l |}.

Definition self_do (f : QToggleView -> QToggleView) : M unit :=
  fun s => (tt, (f (fst s), snd s)).

(** [self.valueChanged.emit(b)] *)
Definition emit_valueChanged (b : bool) : M unit :=
  self_do (fun v => set_valueChanged (valueChanged v ++ [b])%list v).

(** Modelled from the spec: [QToggleSwitch.on] of
    [raphodo/ui/toggleswitch.py] is missing. [self.toggleSwitch.on()]
    reads the state the control holds. *)
Definition toggleSwitch_on : M bool :=
  attr (fun v => switch_value (toggleSwitch v)).

(** [on(self)] *)
Definition on : M bool := toggleSwitch_on.

(** [toggled(self, value)] *)
Definition toggled (value : Z) : M unit :=
  c <- attr content ;;
  match c with
  | Some content =>
      b <- on ;;
      toolkit_do (setVisible content b) ;;
      a <- attr alternateWidget ;;
      match a with
      | Some alternate =>
          b <- on ;;
          toolkit_do (setVisible alternate (negb b))
      | None => ret tt
      end
  | None => ret tt
  end ;;
  b <- on ;;
  emit_valueChanged b.

(** Modelled from the spec: the value change of [QToggleSwitch] of
    [raphodo/ui/toggleswitch.py] is missing. By the user or by [setOn],
    the control takes the value, and its [valueChanged] signal runs the
    slot [__init__] connected to it, [toggled], with the value as an
    [int]. *)
Definition toggleSwitch_change (value : bool) : M unit :=
  self_do (set_switch_value value) ;;
  toggled (if value then 1 else 0).

(** Modelled from the spec: [QToggleSwitch.setOn] of
    [raphodo/ui/toggleswitch.py] is missing. [self.toggleSwitch.setOn(isOn)]
    forces the control to the value, which triggers the transition as a
    change by the user does. *)
Definition toggleSwitch_setOn (isOn : bool) : M unit :=
  toggleSwitch_change isOn.

(** [setOn(self, isOn)] *)
Definition setOn (isOn : bool) : M unit := toggleSwitch_setOn isOn.

(** Modelled from the spec: [QPanelView.addWidget] of
    [raphodo/ui/panelview.py] is missing. It attaches the widget as the
    panel's content and adds it into the layout. *)
Definition QPanelView_addWidget (w : widget) : M unit :=
  self_do (set_content (Some w)) ;;
  self_do (fun v => set_layout (layout v ++ [w])%list v).

(** [addWidget(self, widget)] *)
Definition addWidget (w : widget) : M unit :=
  QPanelView_addWidget w ;;
  toggled 0.

(** [minimumHeight(self)] *)
Definition minimumHeight : M Z :=
  b <- toggleSwitch_on ;;
  if negb b then
    h <- attr header ;;
    toolkit_get (fun t => height (geometry t h))
  else
    toolkit_do updateGeometry ;;
    toolkit_get (fun t => height (Qt.minimumSize t)).

(** [minimumSize(self)] *)
Definition minimumSize : M QSize :=
  size <- toolkit_get Qt.minimumSize ;;
  let width := width size in
  height <- minimumHeight ;;
  ret {| width := width; height := height |}.

(** [sizeHint(self)] *)
Definition sizeHint : M QSize := minimumSize.

(** The arguments of [__init__]. *)
Record arguments : Type := {
  arg_label : string;
  display_alternate : bool;
  object_name : string;
  toggleToolTip : option string;
  arg_headerColor : option QColor;
  arg_headerFontColor : option QColor;
  arg_on : bool;
  parent : option widget
}.

Section Construction.

(** The two colour names of [raphodo.constants] and the answer of
    [is_dark_mode()] of [raphodo.ui.viewutils], which are missing. *)
Variables DarkModeHeaderBackgroundName HeaderBackgroundName : string.
Variable is_dark_mode : bool.

(** Modelled from the spec: [QPanelView.__init__] of
    [raphodo/ui/panelview.py] is missing. It builds the header region
    with the label; no content is attached yet. *)
Definition QPanelView__init__ (label : string) (headerColor : QColor)
    (headerFontColor : option QColor) (t : toolkit) : QPanelView * toolkit :=
  let (header, t) := new_widget t in
  ({| panel_label := label; panel_objectName := "";
      panel_headerColor := headerColor;
      panel_headerFontColor := headerFontColor;
      panel_headerMargins := (0, 0, 0, 0);
      panel_header := header; panel_headerWidgets := [];
      panel_layout := [header]; panel_content := None |}, t).

(** Modelled from the spec: [BlankWidget] of
    [raphodo/ui/viewutils.py] is missing. It is an empty placeholder
    widget. *)
Definition BlankWidget (t : toolkit) : widget * toolkit := new_widget t.

(** Modelled from the spec: the constructor of [QToggleSwitch] is
    missing. The control is a new widget on the given background; it
    is off until [setOn] says otherwise. *)
Definition QToggleSwitch__init__ (background : QColor) (t : toolkit)
    : QToggleSwitch * toolkit :=
  let (w, t) := new_widget t in
  ({| switch_widget := w; switch_value := false;
      background := background; toolTip := None |}, t).

(** [self.toggleSwitch.setToolTip(tip)] *)
Definition setToolTip (tip : string) (sw : QToggleSwitch) : QToggleSwitch :=
  {| switch_widget := switch_widget sw; switch_value := switch_value sw;
     background := background sw; toolTip := Some tip |}.

(** [__init__(self, label, display_alternate, ...)] *)
Definition __init__ (a : arguments) (t : toolkit) : state :=
  let headerColor :=
    match arg_headerColor a with
    | None =>
        if is_dark_mode then DarkModeHeaderBackgroundName
        else HeaderBackgroundName
    | Some c => c
    end in
  let (p, t) := QPanelView__init__ (arg_label a) headerColor
                  (arg_headerFontColor a) t in
  let '(alternate, layout, t) :=
    if display_alternate a then
      let (w, t) := BlankWidget t in (Some w, panel_layout p ++ [w], t)
    else (None, panel_layout p, t) in
  let (switch, t) := QToggleSwitch__init__ headerColor t in
  let switch :=
    match toggleToolTip a with
    | Some tip => if String.eqb tip "" then switch else setToolTip tip switch
    | None => switch
    end in
  let v :=
    {| base :=
         {| panel_label := panel_label p; panel_objectName := object_name a;
            panel_headerColor := panel_headerColor p;
            panel_headerFontColor := panel_headerFontColor p;
            panel_headerMargins := (5, 0, 5, 0);
            panel_header := panel_header p;
            panel_headerWidgets := panel_headerWidgets p ++ [switch_widget switch];
            panel_layout := layout; panel_content := panel_content p |};
       alternateWidget := alternate;
       toggleSwitch := switch;
       valueChanged := [] |} in
  exec (toggleSwitch_setOn (arg_on a)) (v, t).

End Construction.

(** What a caller does to a constructed panel. *)
Inductive call : Type :=
  | UserToggles (value : bool)
  | SetOn (isOn : bool)
  | AddWidget (w : widget).

Definition perform (c : call) : M unit :=
  match c with
  | UserToggles value => toggleSwitch_change value
  | SetOn isOn => setOn isOn
  | AddWidget w => addWidget w
  end.

Definition perform_all (cs : list call) (s : state) : state :=
  fold_left (fun s c => exec (perform c) s) cs s.

(** *** Notions the properties are stated with *)

(** The toolkit after the visibility updates of [toggled]. *)
Definition shown_after_toggle (v : QToggleView) (t : toolkit) : toolkit :=
  let b := switch_value (toggleSwitch v) in
  match content v with
  | Some c =>
      match alternateWidget v with
      | Some a => setVisible a (negb b) (setVisible c b t)
      | None => setVisible c b t
      end
  | None => t
  end.

(** The guarantee in the specification's words: whenever content and
    placeholder both exist, the content shows as the toggle says and the
    placeholder shows the opposite. *)
Definition always_complementary (s : state) : Prop :=
  forall c alternate : widget,
    content (fst s) = Some c ->
    alternateWidget (fst s) = Some alternate ->
    visible (snd s) !! c = Some (eval on s) /\
    visible (snd s) !! alternate = Some (negb (eval on s)).

(** What every transition leaves behind: a content that is a widget of
    its own, next to the placeholder, shows as the toggle says and the
    placeholder shows the opposite. *)
Definition complementary (s : state) : Prop :=
  forall c alternate : widget,
    content (fst s) = Some c ->
    alternateWidget (fst s) = Some alternate ->
    c <> alternate ->
    visible (snd s) !! c = Some (eval on s) /\
    visible (snd s) !! alternate = Some (negb (eval on s)).

End ToggleView.

(** ** Sample states *)

Module Samples.
Import Os Raphodo.

Definition user_home : string := "/home/user/.local/share".

Definition directory : inode :=
  {| st_type := Directory; readable := true; st_mtime := 1 |}.

Definition catalog (mtime : Z) : inode :=
  {| st_type := Regular; readable := true; st_mtime := mtime |}.

(** A filesystem given by the finite list of its paths. *)
Definition filesystem_of (m : gmap string inode) : filesystem := fun p => m !! p.

(** Both sample catalogs are readable; the per-user one is the newer. *)
Definition newer_user_catalog : filesystem :=
  filesystem_of
    (<[user_home := directory]>
     (<[sample_path_of user_home := catalog 200]>
      (<[sample_path_of "/usr/share" := catalog 100]> ∅))).

(** A snap: [SNAP_NAME] and [SNAP] as snapd sets them. *)
Definition snap_environ : Os.environ :=
  <["SNAP_NAME" := "rapid-photo-downloader"]>
    (<["SNAP" := "/snap/rapid-photo-downloader/42"]> ∅).

(** The override variable names a directory that exists. *)
Definition override_environ : Os.environ := <["RPD_I18N_DIR" := "/opt/i18n"]> ∅.

Definition override_filesystem : filesystem :=
  filesystem_of (<["/opt/i18n" := directory]> ∅).


(** A toolkit with one widget, shown, made before any panel; the
    header is 24 high and the layout asks for 180 and more. *)
Definition one_widget : Qt.toolkit :=
  {| Qt.visible := <[0%nat := true]> ∅;
     Qt.geometry := fun _ => {| Qt.width := 320; Qt.height := 24 |};
     Qt.layout_minimumSize :=
       fun n => {| Qt.width := 300; Qt.height := 180 + Z.of_nat n |};
     Qt.geometry_updates := 0 |}.

(** A panel with a placeholder, off at first. *)
Definition collapsed_arguments : ToggleView.arguments :=
  {| ToggleView.arg_label := "Job Code";
     ToggleView.display_alternate := true;
     ToggleView.object_name := "jobCodePanel";
     ToggleView.toggleToolTip := Some "Turn on or off the use of job codes";
     ToggleView.arg_headerColor := None;
     ToggleView.arg_headerFontColor := None;
     ToggleView.arg_on := false;
     ToggleView.parent := None |}.

Definition collapsed_panel : ToggleView.state :=
  ToggleView.__init__ "#4d4d4d" "#e0e0e0" false collapsed_arguments one_widget.

(** The widget the constructor made as the placeholder of
    [collapsed_panel], and the panel after a caller hands it back as the
    content. *)
Definition collapsed_placeholder : Qt.widget := 2%nat.

Definition placeholder_attached : ToggleView.state :=
  ToggleView.perform_all [ToggleView.AddWidget collapsed_placeholder]
    collapsed_panel.

End Samples.

(** ** Notions and sample states for the further properties *)

Module Notions.
Import Raphodo.

(** The test of the loop on one candidate, against the threshold the
    loop starts from: the sample file is there, readable and stamped
    after [0.0]. *)
Definition passes (fs : Os.filesystem) (root : string) : bool :=
  qualifies fs root && (0 <? sample_mtime fs root).

(** Neither the snap nor the [RPD_I18N_DIR] branch returns. *)
Definition no_override (env : Os.environ) (fs : Os.filesystem) : Prop :=
  ~ Str.contains (Os.getenv_default env "SNAP_NAME" "") "rapid-photo-downloader" /\
  (forall dir, env !! "RPD_I18N_DIR" = Some dir -> Os.isdir fs dir = false).

(** The same start with another answer of [locale.getdefaultlocale()]. *)
Definition with_default_locale (r : result (option string * option string))
    (io : startup) : startup :=
  {| environ := environ io; files := files io; data_home := data_home io;
     settings_language := settings_language io;
     getdefaultlocale := r;
     translation := translation io |}.

(** The value the last [setOn] or change of the control of a sequence
    of calls gave, and the widget its last [addWidget] gave. *)
Definition last_switch (cs : list ToggleView.call) (b : bool) : bool :=
  fold_left (fun b c =>
               match c with
               | ToggleView.UserToggles value => value
               | ToggleView.SetOn isOn => isOn
               | ToggleView.AddWidget _ => b
               end) cs b.

Definition last_content (cs : list ToggleView.call) (c : option Qt.widget)
    : option Qt.widget :=
  fold_left (fun c call =>
               match call with
               | ToggleView.AddWidget w => Some w
               | _ => c
               end) cs c.

(** The panel object after the assignments of one call, before its
    transition runs. *)
Definition panel_after (c : ToggleView.call) (v : ToggleView.QToggleView)
    : ToggleView.QToggleView :=
  match c with
  | ToggleView.UserToggles value => ToggleView.set_switch_value value v
  | ToggleView.SetOn isOn => ToggleView.set_switch_value isOn v
  | ToggleView.AddWidget w =>
      ToggleView.set_layout (ToggleView.layout v ++ [w])
        (ToggleView.set_content (Some w) v)
  end.

End Notions.

Module MoreSamples.
Import Os Raphodo Samples.

(** Both sample catalogs are readable; the system-wide one is the newer. *)
Definition newer_system_catalog : filesystem :=
  filesystem_of
    (<[user_home := directory]>
     (<[sample_path_of user_home := catalog 100]>
      (<[sample_path_of "/usr/share" := catalog 200]> ∅))).

(** Only the per-user sample catalog is there. *)
Definition only_user_catalog : filesystem :=
  filesystem_of
    (<[user_home := directory]>
     (<[sample_path_of user_home := catalog 100]> ∅)).

(** Both sample catalogs are readable and stamped at the epoch. *)
Definition epoch_catalogs : filesystem :=
  filesystem_of
    (<[user_home := directory]>
     (<[sample_path_of user_home := catalog 0]>
      (<[sample_path_of "/usr/share" := catalog 0]> ∅))).


(** A start where the French catalog loads; its lookup marks what it
    translates. *)
Definition french_lookup (s : string) : string := "fr:" +:+ s.

Definition french_startup : startup :=
  {| Raphodo.environ := ∅;
     files := newer_user_catalog;
     data_home := user_home;
     settings_language := "fr";
     getdefaultlocale := Raise (OtherException "ValueError");
     translation := fun _ _ _ => Ok french_lookup |}.

(** A start with no preference, where the default locale cannot be
    worked out. *)
Definition unknown_locale_startup : startup :=
  {| Raphodo.environ := ∅;
     files := newer_user_catalog;
     data_home := user_home;
     settings_language := "";
     getdefaultlocale := Raise (OtherException "ValueError");
     translation := fun _ _ _ => Ok french_lookup |}.

(** A start inside a snap whose locale directory holds no sample. *)
Definition snap_startup : startup :=
  {| Raphodo.environ := snap_environ;
     files := fun _ => None;
     data_home := user_home;
     settings_language := "fr";
     getdefaultlocale := Ok (Some "en_US", Some "UTF-8");
     translation := fun _ _ _ => Ok french_lookup |}.

(** The collapsed panel given the widget there was, then switched on. *)
Definition expanded_panel : ToggleView.state :=
  ToggleView.perform_all [ToggleView.AddWidget 0%nat; ToggleView.SetOn true]
    collapsed_panel.

(** A panel without placeholder, on at first. *)
Definition plain_arguments : ToggleView.arguments :=
  {| ToggleView.arg_label := "Rename";
     ToggleView.display_alternate := false;
     ToggleView.object_name := "renamePanel";
     ToggleView.toggleToolTip := None;
     ToggleView.arg_headerColor := Some "#707070";
     ToggleView.arg_headerFontColor := None;
     ToggleView.arg_on := true;
     ToggleView.parent := None |}.

End MoreSamples.

(** * Properties *)

(** ** Strings and paths *)

Section StrFacts.

Lemma startswith_app (p rest : string) : Str.startswith (p +:+ rest) p = true.
Proof.
  induction p as [|c p IH]; simpl; [reflexivity|].
  rewrite Ascii.eqb_refl. exact IH.
Qed.

Lemma startswith_split (s p : string) :
  Str.startswith s p = true -> exists rest, s = p +:+ rest.
Proof.
  revert s. induction p as [|c p IH]; intros s H.
  - exists s. reflexivity.
  - destruct s as [|d s]; simpl in H; [discriminate|].
    destruct (Ascii.eqb c d) eqn:E; [|discriminate].
    apply Ascii.eqb_eq in E. subst d.
    destruct (IH _ H) as [rest ->]. exists rest. reflexivity.
Qed.

Lemma lowest_index_at_start (s sub : string) :
  Str.startswith s sub = true -> Str.lowest_index s sub = Some 0%nat.
Proof. intros H. destruct s; cbn [Str.lowest_index]; rewrite H; reflexivity. Qed.

Lemma lowest_index_of_occurrence (before sub after : string) :
  is_Some (Str.lowest_index (before +:+ (sub +:+ after)) sub).
Proof.
  induction before as [|c before IH].
  - change ("" +:+ (sub +:+ after)) with (sub +:+ after).
    rewrite lowest_index_at_start; [eauto | apply startswith_app].
  - change (String c before +:+ (sub +:+ after))
      with (String c (before +:+ (sub +:+ after))).
    cbn [Str.lowest_index].
    destruct (Str.startswith (String c _) sub); [eauto|].
    destruct IH as [i ->]. simpl. eauto.
Qed.

Lemma occurrence_of_lowest_index (s sub : string) (i : nat) :
  Str.lowest_index s sub = Some i -> Str.contains s sub.
Proof.
  revert i. induction s as [|c s IH]; intros i H.
  - simpl in H. destruct (Str.startswith "" sub) eqn:E; [|discriminate].
    destruct (startswith_split _ _ E) as [rest Hr].
    exists "", rest. exact Hr.
  - cbn [Str.lowest_index] in H.
    destruct (Str.startswith (String c s) sub) eqn:E.
    + destruct (startswith_split _ _ E) as [rest Hr].
      exists "", rest. exact Hr.
    + destruct (Str.lowest_index s sub) as [j|] eqn:Ej; [|discriminate].
      destruct (IH j eq_refl) as (before & after & ->).
      exists (String c before), after. reflexivity.
Qed.

(** [s.find(sub) >= 0] says that [sub] occurs in [s]. *)
Lemma find_nonneg_iff (s sub : string) :
  (0 <=? Str.find s sub) = true <-> Str.contains s sub.
Proof.
  unfold Str.find. split.
  - destruct (Str.lowest_index s sub) as [i|] eqn:E.
    + intros _. eapply occurrence_of_lowest_index, E.
    + intros H. apply Z.leb_le in H. lia.
  - intros (before & after & ->).
    destruct (lowest_index_of_occurrence before sub after) as [i ->].
    apply Z.leb_le. lia.
Qed.

Lemma find_negative_iff (s sub : string) :
  (0 <=? Str.find s sub) = false <-> ~ Str.contains s sub.
Proof.
  rewrite <- find_nonneg_iff. destruct (0 <=? Str.find s sub); split; congruence.
Qed.

(** An absolute last component is the whole of the joined path. *)
Lemma join_absolute (a b : string) :
  Str.startswith b Os.sep = true -> Os.join a [b] = b.
Proof.
  intros H. unfold Os.join. cbn [fold_left].
  unfold Os.join_step. rewrite H. reflexivity.
Qed.

End StrFacts.

(** ** Locating the locale directory *)

Section LocaleDirectory.
Import Raphodo.

Variable env : Os.environ.
Variable fs : Os.filesystem.
Variable data_home : string.

Lemma system_locale_path : Os.join "/usr/share" ["locale"] = "/usr/share/locale".
Proof. reflexivity. Qed.

(** One round of the loop never touches [locale_mtime], and keeps or
    replaces [locale_dir] by the test on the sample file. *)
Lemma candidate_step_eq (m : Z) (d : option string) (root : string) :
  candidate_step fs sample_translation (Ok (m, d)) root =
  Ok (m, if qualifies fs root && (m <? sample_mtime fs root)
         then Some (Os.join root ["locale"]) else d).
Proof.
  unfold candidate_step, qualifies, sample_mtime, sample_path_of, Os.isfile,
    Os.access_R_OK, Os.getmtime, result_bind.
  destruct (fs _) as [[ty r mt]|]; [|reflexivity].
  destruct ty; simpl; try reflexivity.
  destruct r; simpl; [|reflexivity].
  destruct (m <? mt); reflexivity.
Qed.

(** The comparison in closed form: the threshold stays [0.0], so the
    system-wide candidate is taken when it passes, the per-user one
    only when the system-wide one does not. *)
Lemma compare_candidates_eq :
  compare_candidates fs data_home =
  if Os.Path_is_dir fs data_home then
    Ok (if qualifies fs "/usr/share" && (0 <? sample_mtime fs "/usr/share")
        then Some "/usr/share/locale"
        else if qualifies fs data_home && (0 <? sample_mtime fs data_home)
             then Some (Os.join data_home ["locale"])
             else None)
  else Raise AssertionError.
Proof.
  unfold compare_candidates. destruct (Os.Path_is_dir fs data_home); [|reflexivity].
  cbn [fold_left]. rewrite !candidate_step_eq. reflexivity.
Qed.

(** Without the snap and the [RPD_I18N_DIR] overrides the function is
    the comparison of the candidates. *)
Lemma locale_directory_no_override :
  ~ Str.contains (Os.getenv_default env "SNAP_NAME" "") "rapid-photo-downloader" ->
  (forall dir, env !! "RPD_I18N_DIR" = Some dir -> Os.isdir fs dir = false) ->
  locale_directory env fs data_home = compare_candidates fs data_home.
Proof.
  intros Hsnap Hdir. unfold locale_directory.
  apply find_negative_iff in Hsnap. rewrite Hsnap.
  unfold Os.getenv. destruct (env !! "RPD_I18N_DIR") as [dir|] eqn:E; [|reflexivity].
  rewrite (Hdir dir eq_refl). reflexivity.
Qed.

End LocaleDirectory.

Section LocaleDirectoryClaims.
Import Raphodo.

(** C3. When the value of [SNAP_NAME] contains [rapid-photo-downloader],
    [locale_directory()] returns one fixed path, [/usr/lib/locale]: the
    same for every filesystem state, every value of [SNAP] (the joined
    component is absolute, so the snap root is dropped) and every data
    directory, nothing being looked up on the filesystem. *)
Theorem snap_locale_directory_is_fixed (env : Os.environ) (fs : Os.filesystem)
    (data_home snap_name : string) :
  env !! "SNAP_NAME" = Some snap_name ->
  Str.contains snap_name "rapid-photo-downloader" ->
  locale_directory env fs data_home = Ok (Some "/usr/lib/locale").
Proof.
  intros Hname Hsub. unfold locale_directory, Os.getenv_default.
  rewrite Hname. apply find_nonneg_iff in Hsub. rewrite Hsub.
  rewrite join_absolute; reflexivity.
Qed.

Lemma snap_locale_directory_is_fixed_witness :
  locale_directory Samples.snap_environ (fun _ => None) "" =
  Ok (Some "/usr/lib/locale").
Proof.
  apply (snap_locale_directory_is_fixed _ _ _ "rapid-photo-downloader").
  - reflexivity.
  - exists "", "". reflexivity.
Defined.

(** C6. Without the snap override, when [RPD_I18N_DIR] is set and names
    an existing directory, [locale_directory()] returns that directory
    whatever the candidate roots hold; when it is set and does not name
    an existing directory, the function is the comparison of the
    candidates. *)
Theorem rpd_i18n_dir_override (env : Os.environ) (fs : Os.filesystem)
    (data_home dir : string) :
  ~ Str.contains (Os.getenv_default env "SNAP_NAME" "") "rapid-photo-downloader" ->
  env !! "RPD_I18N_DIR" = Some dir ->
  (Os.isdir fs dir = true -> locale_directory env fs data_home = Ok (Some dir)) /\
  (Os.isdir fs dir = false ->
   locale_directory env fs data_home = compare_candidates fs data_home).
Proof.
  intros Hsnap Hdir. unfold locale_directory.
  apply find_negative_iff in Hsnap. rewrite Hsnap.
  unfold Os.getenv. rewrite Hdir.
  split; intros ->; reflexivity.
Qed.

Lemma rpd_i18n_dir_override_witness :
  locale_directory Samples.override_environ Samples.override_filesystem
    Samples.user_home = Ok (Some "/opt/i18n") /\
  locale_directory Samples.override_environ Samples.newer_user_catalog
    Samples.user_home = compare_candidates Samples.newer_user_catalog Samples.user_home.
Proof.
  split.
  - apply (rpd_i18n_dir_override Samples.override_environ
             Samples.override_filesystem Samples.user_home "/opt/i18n");
      [apply find_negative_iff; reflexivity | reflexivity | reflexivity].
  - apply (rpd_i18n_dir_override Samples.override_environ
             Samples.newer_user_catalog Samples.user_home "/opt/i18n");
      [apply find_negative_iff; reflexivity | reflexivity | reflexivity].
Defined.

(** C9. When no override applies, the data directory exists, and the
    sample catalogs under both the per-user data directory and
    [/usr/share] exist, are readable and have positive modification
    times, [locale_directory()] returns [/usr/share/locale], whichever
    catalog is the newer: a round of the loop leaves the threshold
    [locale_mtime] as it found it, so the last candidate that passes
    wins. *)
Theorem system_candidate_wins_when_both_qualify (env : Os.environ)
    (fs : Os.filesystem) (data_home : string) :
  ~ Str.contains (Os.getenv_default env "SNAP_NAME" "") "rapid-photo-downloader" ->
  (forall dir, env !! "RPD_I18N_DIR" = Some dir -> Os.isdir fs dir = false) ->
  Os.Path_is_dir fs data_home = true ->
  qualifies fs data_home = true -> 0 < sample_mtime fs data_home ->
  qualifies fs "/usr/share" = true -> 0 < sample_mtime fs "/usr/share" ->
  locale_directory env fs data_home = Ok (Some "/usr/share/locale") /\
  (forall (m : Z) (d : option string) (root : string),
     exists d', candidate_step fs sample_translation (Ok (m, d)) root = Ok (m, d')).
Proof.
  intros Hsnap Hover Hhome _ _ Hsys Hpos. split.
  - rewrite locale_directory_no_override by assumption.
    rewrite compare_candidates_eq, Hhome, Hsys.
    apply Z.ltb_lt in Hpos. rewrite Hpos. reflexivity.
  - intros m d root. rewrite candidate_step_eq. eauto.
Qed.

Lemma system_candidate_wins_when_both_qualify_witness :
  locale_directory ∅ Samples.newer_user_catalog Samples.user_home =
  Ok (Some "/usr/share/locale").
Proof.
  apply (system_candidate_wins_when_both_qualify ∅ Samples.newer_user_catalog
           Samples.user_home).
  - apply find_negative_iff. reflexivity.
  - intros dir H. discriminate H.
  - reflexivity.
  - reflexivity.
  - reflexivity.
  - reflexivity.
  - reflexivity.
Defined.

(** C1, at a state where it fails. Both sample catalogs exist and are
    readable and the per-user one is the newer (200 against 100): the
    rule of the docstring selects the per-user locale directory, and
    [locale_directory()] returns [/usr/share/locale]. *)
Theorem locale_directory_overlooks_newer_user_catalog :
  qualifies Samples.newer_user_catalog Samples.user_home = true /\
  qualifies Samples.newer_user_catalog "/usr/share" = true /\
  sample_mtime Samples.newer_user_catalog "/usr/share"
    < sample_mtime Samples.newer_user_catalog Samples.user_home /\
  newest_candidate Samples.newer_user_catalog Samples.user_home "/usr/share"
    = Some "/home/user/.local/share/locale" /\
  locale_directory ∅ Samples.newer_user_catalog Samples.user_home
    = Ok (Some "/usr/share/locale").
Proof. repeat split; reflexivity. Qed.



End LocaleDirectoryClaims.

(** ** The toggle panel *)

Section TogglePanel.
Import Qt ToggleView.

(** [toggled] in one step: the visibility updates, then one emission
    of the state of the switch. *)
Lemma toggled_eq (value : Z) (v : QToggleView) (t : toolkit) :
  toggled value (v, t) =
  (tt, (set_valueChanged (valueChanged v ++ [switch_value (toggleSwitch v)]) v,
        shown_after_toggle v t)).
Proof.
  cbv beta iota zeta delta
    [toggled shown_after_toggle on toggleSwitch_on emit_valueChanged
     bind attr toolkit_do self_do ret fst snd].
  destruct (content v) as [c|]; [destruct (alternateWidget v) as [a|]|];
    reflexivity.
Qed.

Lemma toggleSwitch_change_eq (value : bool) (v : QToggleView) (t : toolkit) :
  exec (toggleSwitch_change value) (v, t) =
  (set_valueChanged (valueChanged v ++ [value]) (set_switch_value value v),
   shown_after_toggle (set_switch_value value v) t).
Proof.
  unfold exec, toggleSwitch_change, bind, self_do. cbn [fst snd].
  rewrite toggled_eq. reflexivity.
Qed.

Lemma addWidget_eq (w : widget) (v : QToggleView) (t : toolkit) :
  exec (addWidget w) (v, t) =
  let v' := set_layout (layout v ++ [w]) (set_content (Some w) v) in
  (set_valueChanged (valueChanged v ++ [switch_value (toggleSwitch v)]) v',
   shown_after_toggle v' t).
Proof.
  unfold exec, addWidget, QPanelView_addWidget, bind, self_do. cbn [fst snd].
  rewrite toggled_eq. reflexivity.
Qed.

Lemma setVisible_lookup (w : widget) (b : bool) (t : toolkit) :
  visible (setVisible w b t) !! w = Some b.
Proof. unfold setVisible. cbn [visible]. apply lookup_insert_eq. Qed.

Lemma setVisible_lookup_ne (w w' : widget) (b : bool) (t : toolkit) :
  w <> w' -> visible (setVisible w b t) !! w' = visible t !! w'.
Proof. intros H. unfold setVisible. cbn [visible]. by apply lookup_insert_ne. Qed.

(** After the visibility updates, a content that is not the
    placeholder shows as the switch says, and the placeholder shows
    the opposite. *)
Lemma shown_after_toggle_content (v : QToggleView) (t : toolkit) (c : widget) :
  content v = Some c -> alternateWidget v <> Some c ->
  visible (shown_after_toggle v t) !! c = Some (switch_value (toggleSwitch v)).
Proof.
  intros Hc Ha. unfold shown_after_toggle. rewrite Hc.
  destruct (alternateWidget v) as [a|].
  - rewrite setVisible_lookup_ne by congruence. apply setVisible_lookup.
  - apply setVisible_lookup.
Qed.

Lemma shown_after_toggle_alternate (v : QToggleView) (t : toolkit) (c a : widget) :
  content v = Some c -> alternateWidget v = Some a ->
  visible (shown_after_toggle v t) !! a = Some (negb (switch_value (toggleSwitch v))).
Proof.
  intros Hc Ha. unfold shown_after_toggle. rewrite Hc, Ha.
  apply setVisible_lookup.
Qed.

(** A new widget is none of the existing ones, which all stay. *)
Lemma new_widget_fresh (t : toolkit) (w : widget) :
  is_Some (visible t !! w) -> fst (new_widget t) <> w.
Proof.
  intros H Heq. apply elem_of_dom in H. unfold new_widget in Heq.
  cbn [fst] in Heq. subst w. by apply is_fresh in H.
Qed.

Lemma new_widget_keeps (t : toolkit) (w : widget) :
  is_Some (visible t !! w) -> is_Some (visible (snd (new_widget t)) !! w).
Proof.
  intros H. unfold new_widget. cbn [snd visible].
  rewrite lookup_insert_ne; [exact H|].
  apply (new_widget_fresh t w H).
Qed.

Lemma perform_all_snoc (cs : list call) (c : call) (s : state) :
  perform_all (cs ++ [c]) s = exec (perform c) (perform_all cs s).
Proof. unfold perform_all. by rewrite fold_left_app. Qed.

(** Running the constructor up to its last statement, the [setOn] of
    the initial state. *)
Ltac run_init :=
  cbv beta iota zeta delta
    [__init__ QPanelView__init__ BlankWidget QToggleSwitch__init__ new_widget];
  destruct (display_alternate _);
  cbv beta iota zeta;
  unfold toggleSwitch_setOn; rewrite toggleSwitch_change_eq.

Section Constructed.

Variables (dark light : string) (is_dark : bool).
Variables (a : arguments) (t : toolkit).

Let s0 : state := __init__ dark light is_dark a t.

Lemma init_content : content (fst s0) = None.
Proof. subst s0. run_init; reflexivity. Qed.

Lemma init_switch : switch_value (toggleSwitch (fst s0)) = arg_on a.
Proof. subst s0. run_init; reflexivity. Qed.

Lemma init_valueChanged : valueChanged (fst s0) = [arg_on a].
Proof. subst s0. run_init; reflexivity. Qed.

Lemma init_alternate :
  alternateWidget (fst s0) =
  if display_alternate a
  then Some (fst (new_widget (snd (new_widget t))))
  else None.
Proof. subst s0. run_init; reflexivity. Qed.

(** The placeholder is made by the constructor: it is none of the
    widgets that were there before. *)
Lemma init_alternate_fresh (w : widget) :
  is_Some (visible t !! w) -> alternateWidget (fst s0) <> Some w.
Proof.
  intros H. rewrite init_alternate.
  destruct (display_alternate a); [|discriminate].
  intros Heq. apply (new_widget_fresh _ w (new_widget_keeps t w H)).
  congruence.
Qed.

(** The placeholder is one of the widgets there are once the
    constructor is over. *)
Lemma init_alternate_registered (w : widget) :
  alternateWidget (fst s0) = Some w -> is_Some (visible (snd s0) !! w).
Proof.
  subst s0. run_init; cbn [fst snd]; [|discriminate].
  intros [= <-]. unfold shown_after_toggle. cbn [content panel_content base
    set_switch_value visible].
  apply elem_of_dom. rewrite !dom_insert_L. set_solver.
Qed.

End Constructed.

End TogglePanel.

Section TogglePanelClaims.
Import Qt ToggleView.

(** C5. A call of [setOn], a call of [addWidget], a change of the value
    of the toggle control, and the construction of the panel each add
    exactly one emission of [valueChanged] to those made before, and it
    carries the state of the toggle once the call is over. *)
Theorem every_transition_emits_once :
  (forall (isOn : bool) (s : state),
     let s' := exec (setOn isOn) s in
     valueChanged (fst s') = valueChanged (fst s) ++ [eval on s'] /\
     eval on s' = isOn) /\
  (forall (w : widget) (s : state),
     let s' := exec (addWidget w) s in
     valueChanged (fst s') = valueChanged (fst s) ++ [eval on s'] /\
     eval on s' = eval on s) /\
  (forall (value : bool) (s : state),
     let s' := exec (toggleSwitch_change value) s in
     valueChanged (fst s') = valueChanged (fst s) ++ [eval on s'] /\
     eval on s' = value) /\
  (forall (dark light : string) (is_dark : bool) (a : arguments) (t : toolkit),
     let s' := __init__ dark light is_dark a t in
     valueChanged (fst s') = [eval on s'] /\
     eval on s' = arg_on a).
Proof.
  repeat split.
  - destruct s as [v t]. unfold setOn, toggleSwitch_setOn.
    rewrite toggleSwitch_change_eq. reflexivity.
  - destruct s as [v t]. unfold setOn, toggleSwitch_setOn.
    rewrite toggleSwitch_change_eq. reflexivity.
  - destruct s as [v t]. rewrite addWidget_eq. reflexivity.
  - destruct s as [v t]. rewrite addWidget_eq. reflexivity.
  - destruct s as [v t]. rewrite toggleSwitch_change_eq. reflexivity.
  - destruct s as [v t]. rewrite toggleSwitch_change_eq. reflexivity.
  - rewrite init_valueChanged. unfold eval, on, toggleSwitch_on, attr. cbn [fst].
    by rewrite init_switch.
  - unfold eval, on, toggleSwitch_on, attr. cbn [fst]. apply init_switch.
Qed.

(** C10. On a panel with no content attached, a transition (the slot
    [toggled], reached by [setOn] or by a change of the toggle control)
    emits [valueChanged] with the current state and leaves the toolkit as
    it was: no widget changes visibility, the placeholder included. *)
Theorem transition_without_content_keeps_visibility (s : state) :
  content (fst s) = None ->
  (forall value : Z,
     snd (exec (toggled value) s) = snd s /\
     valueChanged (fst (exec (toggled value) s)) = valueChanged (fst s) ++ [eval on s]) /\
  (forall isOn : bool,
     snd (exec (setOn isOn) s) = snd s /\
     valueChanged (fst (exec (setOn isOn) s)) = valueChanged (fst s) ++ [isOn]) /\
  (forall value : bool,
     snd (exec (toggleSwitch_change value) s) = snd s /\
     valueChanged (fst (exec (toggleSwitch_change value) s))
       = valueChanged (fst s) ++ [value]) /\
  (forall (isOn : bool) (alternate : widget),
     alternateWidget (fst s) = Some alternate ->
     visible (snd (exec (setOn isOn) s)) !! alternate = visible (snd s) !! alternate).
Proof.
  destruct s as [v t]. cbn [fst snd]. intros Hc.
  assert (Hshown : forall b, shown_after_toggle (set_switch_value b v) t = t).
  { intros b. unfold shown_after_toggle. change (content (set_switch_value b v)) with (content v). by rewrite Hc. }
  repeat split.
  - unfold exec. rewrite toggled_eq. cbn [fst snd].
    unfold shown_after_toggle. by rewrite Hc.
  - unfold exec. rewrite toggled_eq. reflexivity.
  - unfold setOn, toggleSwitch_setOn. rewrite toggleSwitch_change_eq. apply Hshown.
  - unfold setOn, toggleSwitch_setOn. rewrite toggleSwitch_change_eq. reflexivity.
  - rewrite toggleSwitch_change_eq. apply Hshown.
  - rewrite toggleSwitch_change_eq. reflexivity.
  - intros isOn alternate _. unfold setOn, toggleSwitch_setOn.
    rewrite toggleSwitch_change_eq. cbn [snd]. by rewrite Hshown.
Qed.

Lemma transition_without_content_keeps_visibility_witness :
    snd (exec (setOn true) Samples.collapsed_panel) = snd Samples.collapsed_panel /\
    valueChanged (fst (exec (setOn true) Samples.collapsed_panel))
      = valueChanged (fst Samples.collapsed_panel) ++ [true].
Proof.
    destruct (transition_without_content_keeps_visibility Samples.collapsed_panel
                eq_refl) as (_ & H & _).
    exact (H true).
Defined.

(** C8. While the toggle is off, [minimumHeight()] is the height of the
    header, whatever the layout and the content ask for, and
    [minimumSize()] has that height next to the width of the default
    computation. *)
Theorem collapsed_minimum_height (s : state) :
  eval on s = false ->
  eval minimumHeight s = height (geometry (snd s) (header (fst s))) /\
  eval minimumSize s =
    {| width := width (Qt.minimumSize (snd s)); height := eval minimumHeight s |} /\
  (forall s' : state,
     eval on s' = false ->
     header (fst s') = header (fst s) ->
     geometry (snd s') (header (fst s)) = geometry (snd s) (header (fst s)) ->
     eval minimumHeight s' = eval minimumHeight s).
Proof.
  destruct s as [v t]. intros Hoff.
  assert (Hmin : forall v' t', eval on (v', t') = false ->
            eval minimumHeight (v', t') = height (geometry t' (header v'))).
  { intros v' t' H. unfold eval, on, toggleSwitch_on, attr in H. cbn [fst] in H.
    cbv beta iota zeta delta
      [eval minimumHeight toggleSwitch_on bind attr toolkit_get fst snd].
    rewrite H. reflexivity. }
  split; [apply Hmin, Hoff|split].
  - rewrite (Hmin _ _ Hoff).
    unfold eval, on, toggleSwitch_on, attr in Hoff. cbn [fst] in Hoff.
    cbv beta iota zeta delta
      [eval minimumSize minimumHeight toggleSwitch_on bind attr toolkit_get ret
       fst snd].
    rewrite Hoff. reflexivity.
  - intros [v' t'] Hoff' Hh Hg. cbn [fst snd] in *.
    rewrite (Hmin _ _ Hoff), (Hmin _ _ Hoff'), Hh, Hg. reflexivity.
Qed.

Lemma collapsed_minimum_height_witness :
  eval minimumHeight Samples.collapsed_panel = 24 /\
  eval minimumSize Samples.collapsed_panel = {| width := 300; height := 24 |}.
Proof.
  destruct (collapsed_minimum_height Samples.collapsed_panel eq_refl)
    as (Hh & Hs & _).
  split; [exact Hh | exact Hs].
Defined.

(** C7 as stated fails for one widget: a panel constructed with the
    toggle off and a placeholder, then given that placeholder by
    [addWidget], has it as content and shows it, the second [setVisible]
    of [toggled] undoing the first. *)
Lemma addWidget_of_own_placeholder_shows_it :
  arg_on Samples.collapsed_arguments = false /\
  alternateWidget (fst Samples.collapsed_panel)
    = Some Samples.collapsed_placeholder /\
  content (fst (exec (addWidget Samples.collapsed_placeholder)
                  Samples.collapsed_panel))
    = Some Samples.collapsed_placeholder /\
  eval on (exec (addWidget Samples.collapsed_placeholder) Samples.collapsed_panel)
    = false /\
  visible (snd (exec (addWidget Samples.collapsed_placeholder)
                  Samples.collapsed_panel)) !! Samples.collapsed_placeholder
    = Some true /\
  visible (snd (exec (addWidget Samples.collapsed_placeholder)
                  Samples.collapsed_panel)) !! Samples.collapsed_placeholder
    <> Some false.
Proof. repeat split. discriminate. Qed.

(** C7, amended. For every widget [w] other than the panel's own
    placeholder, a panel constructed with the toggle off and then given
    [w] by [addWidget], whatever the toolkit has become in between, has
    [w] as its content and [w] hidden, with no further call: [addWidget]
    runs the transition itself. *)
Theorem addWidget_on_collapsed_panel_hides_content (dark light : string)
    (is_dark : bool) (a : arguments) (t t' : toolkit) (w : widget) :
  arg_on a = false ->
  alternateWidget (fst (__init__ dark light is_dark a t)) <> Some w ->
  let s := exec (addWidget w) (fst (__init__ dark light is_dark a t), t') in
  content (fst s) = Some w /\
  eval on s = false /\
  visible (snd s) !! w = Some false.
Proof.
  intros Hoff Hne.
  pose proof (init_switch dark light is_dark a t) as Hswitch.
  destruct (__init__ dark light is_dark a t) as [v0 t0]. cbn [fst] in *.
  cbv zeta. rewrite addWidget_eq. cbv zeta. cbn [fst snd].
  split; [reflexivity|split].
  - unfold eval, on, toggleSwitch_on, attr. cbn. congruence.
  - rewrite shown_after_toggle_content with (c := w); [|reflexivity|exact Hne].
    cbn. congruence.
Qed.

Lemma addWidget_on_collapsed_panel_hides_content_witness :
  visible (snd (exec (addWidget 0%nat) Samples.collapsed_panel)) !! 0%nat
  = Some false.
Proof.
  destruct (addWidget_on_collapsed_panel_hides_content "#4d4d4d" "#e0e0e0" false
              Samples.collapsed_arguments Samples.one_widget
              (snd Samples.collapsed_panel) 0%nat eq_refl)
    as (_ & _ & Hhidden).
  - vm_compute. discriminate.
  - exact Hhidden.
Defined.

(** The side condition of the amended C7 holds for the widgets a caller
    has of its own: those there were when the panel was constructed, and
    one made once the panel is there. *)
Lemma own_widgets_are_not_the_placeholder (dark light : string)
    (is_dark : bool) (a : arguments) (t : toolkit) :
  let s0 := __init__ dark light is_dark a t in
  (forall w : widget,
     is_Some (visible t !! w) -> alternateWidget (fst s0) <> Some w) /\
  alternateWidget (fst s0) <> Some (fst (new_widget (snd s0))).
Proof.
  cbv zeta. split.
  - apply init_alternate_fresh.
  - intros Ha. apply init_alternate_registered in Ha.
    exact (new_widget_fresh _ _ Ha eq_refl).
Qed.

Lemma complementary_after_toggle (v : QToggleView) (t : toolkit) (l : list bool) :
  complementary (set_valueChanged l v, shown_after_toggle v t).
Proof.
  intros c alternate Hc Ha Hne. cbn [fst snd] in *.
  change (content (set_valueChanged l v)) with (content v) in Hc.
  change (alternateWidget (set_valueChanged l v)) with (alternateWidget v) in Ha.
  split.
  - apply shown_after_toggle_content; congruence.
  - eapply shown_after_toggle_alternate; eassumption.
Qed.

Lemma perform_complementary (c : call) (s : state) :
  complementary (exec (perform c) s).
Proof.
  destruct s as [v t]. destruct c as [value|isOn|w]; cbn [perform].
  - rewrite toggleSwitch_change_eq. apply complementary_after_toggle.
  - unfold setOn, toggleSwitch_setOn. rewrite toggleSwitch_change_eq.
    apply complementary_after_toggle.
  - rewrite addWidget_eq. cbv zeta. apply complementary_after_toggle.
Qed.

Lemma perform_alternate (c : call) (s : state) :
  alternateWidget (fst (exec (perform c) s)) = alternateWidget (fst s).
Proof.
  destruct s as [v t]. destruct c as [value|isOn|w]; cbn [perform].
  - rewrite toggleSwitch_change_eq. reflexivity.
  - unfold setOn, toggleSwitch_setOn. rewrite toggleSwitch_change_eq. reflexivity.
  - rewrite addWidget_eq. reflexivity.
Qed.

Lemma perform_all_alternate (cs : list call) (s : state) :
  alternateWidget (fst (perform_all cs s)) = alternateWidget (fst s).
Proof.
  induction cs as [|c cs IH] using rev_ind; [reflexivity|].
  rewrite perform_all_snoc, perform_alternate. exact IH.
Qed.

(** C2. On a panel constructed with [display_alternate], after any
    sequence of changes of the toggle control, [setOn] calls and
    [addWidget] calls, the placeholder is there and, when a content is
    attached next to it, the content shows exactly when the toggle is on
    and the placeholder exactly when it is off: one of the two is
    visible and the other is not. *)
Theorem content_and_placeholder_complementary (dark light : string)
    (is_dark : bool) (a : arguments) (t : toolkit) (calls : list call) :
  display_alternate a = true ->
  let s := perform_all calls (__init__ dark light is_dark a t) in
  exists alternate : widget,
    alternateWidget (fst s) = Some alternate /\
    forall c : widget,
      content (fst s) = Some c ->
      c <> alternate ->
      exists shown_c shown_a : bool,
        visible (snd s) !! c = Some shown_c /\
        visible (snd s) !! alternate = Some shown_a /\
        shown_c = eval on s /\
        shown_a = negb (eval on s) /\
        xorb shown_c shown_a = true.
Proof.
  intros Halt s.
  assert (Ha : alternateWidget (fst s)
               = Some (fst (new_widget (snd (new_widget t))))).
  { subst s. rewrite perform_all_alternate, init_alternate, Halt. reflexivity. }
  assert (Hinv : complementary s).
  { subst s. destruct calls as [|c cs] using rev_ind.
    - intros c alternate Hc. cbn [perform_all fold_left] in Hc.
      rewrite init_content in Hc. discriminate.
    - rewrite perform_all_snoc. apply perform_complementary. }
  eexists. split; [exact Ha|].
  intros c Hc Hne. destruct (Hinv c _ Hc Ha Hne) as [H1 H2].
  exists (eval on s), (negb (eval on s)).
  repeat split; try assumption. by destruct (eval on s).
Qed.

Lemma content_and_placeholder_complementary_witness :
  let s := perform_all [AddWidget 0%nat; SetOn true; UserToggles false; SetOn true]
             Samples.collapsed_panel in
  exists alternate : widget,
    alternateWidget (fst s) = Some alternate /\
    0%nat <> alternate /\
    visible (snd s) !! 0%nat = Some true /\
    visible (snd s) !! alternate = Some false.
Proof.
  intros s.
  destruct (content_and_placeholder_complementary "#4d4d4d" "#e0e0e0" false
              Samples.collapsed_arguments Samples.one_widget
              [AddWidget 0%nat; SetOn true; UserToggles false; SetOn true]
              eq_refl) as (alternate & Ha & H).
  fold s in Ha, H.
  assert (Hne : 0%nat <> alternate).
  { vm_compute in Ha. injection Ha as <-. discriminate. }
  destruct (H 0%nat eq_refl Hne) as (sc & sa & Hc & Hsa & -> & -> & _).
  exists alternate. repeat split; assumption.
Defined.

(** C2 as stated fails when a caller hands the panel its own placeholder
      as the content: the second [setVisible] of [toggled] lands on the
      widget of the first, so the content shows while the toggle is off. *)
Lemma attached_placeholder_is_not_complementary :
    display_alternate Samples.collapsed_arguments = true /\
    content (fst Samples.placeholder_attached) = Some Samples.collapsed_placeholder /\
    alternateWidget (fst Samples.placeholder_attached)
      = Some Samples.collapsed_placeholder /\
    eval on Samples.placeholder_attached = false /\
    visible (snd Samples.placeholder_attached) !! Samples.collapsed_placeholder
      = Some true /\
    ~ always_complementary Samples.placeholder_attached.
Proof.
    repeat split.
    intros H.
    destruct (H Samples.collapsed_placeholder Samples.collapsed_placeholder
                eq_refl eq_refl) as [Hshown _].
    vm_compute in Hshown. discriminate Hshown.
Qed.

End TogglePanelClaims.


(** ** Further properties of the locale directory *)

Section LocaleDirectoryFurther.
Import Raphodo Notions.

Lemma locale_directory_compare (env : Os.environ) (fs : Os.filesystem)
    (data_home : string) :
  no_override env fs ->
  locale_directory env fs data_home =
  if Os.Path_is_dir fs data_home then
    Ok (if passes fs "/usr/share" then Some "/usr/share/locale"
        else if passes fs data_home then Some (Os.join data_home ["locale"])
        else None)
  else Raise AssertionError.
Proof.
  intros [Hsnap Hdir].
  rewrite locale_directory_no_override by assumption.
  apply compare_candidates_eq.
Qed.

Lemma passes_false (fs : Os.filesystem) (root : string) :
  passes fs root = false <-> qualifies fs root = false \/ sample_mtime fs root <= 0.
Proof.
  unfold passes. rewrite andb_false_iff, Z.ltb_ge. reflexivity.
Qed.

Lemma no_override_without_variables (fs : Os.filesystem) : no_override ∅ fs.
Proof.
  split.
  - apply find_negative_iff. reflexivity.
  - intros dir H. discriminate H.
Qed.

(** X1. With no override and the data directory there,
    [locale_directory()] returns [None] exactly when neither candidate
    has a sample file that is there, readable and stamped after [0.0]: a
    readable sample stamped at the epoch or before does not count. *)
Theorem no_directory_iff_no_candidate_passes (env : Os.environ)
    (fs : Os.filesystem) (data_home : string) :
  no_override env fs ->
  Os.Path_is_dir fs data_home = true ->
  locale_directory env fs data_home = Ok None <->
  (qualifies fs data_home = false \/ sample_mtime fs data_home <= 0) /\
  (qualifies fs "/usr/share" = false \/ sample_mtime fs "/usr/share" <= 0).
Proof.
  intros Hno Hhome. rewrite locale_directory_compare, Hhome by assumption.
  rewrite <- !passes_false.
  destruct (passes fs "/usr/share"), (passes fs data_home); split;
    try intros [? ?]; try intros ?; try discriminate; auto; congruence.
Qed.

Lemma no_directory_iff_no_candidate_passes_witness :
  locale_directory ∅ MoreSamples.epoch_catalogs Samples.user_home = Ok None /\
  qualifies MoreSamples.epoch_catalogs Samples.user_home = true /\
  qualifies MoreSamples.epoch_catalogs "/usr/share" = true.
Proof.
  split; [|split; reflexivity].
  apply (no_directory_iff_no_candidate_passes ∅ MoreSamples.epoch_catalogs
           Samples.user_home).
  - apply no_override_without_variables.
  - reflexivity.
  - split; right; vm_compute; discriminate.
Defined.

(** X2. With no override and the data directory there, a system-wide
    sample that is there, readable and stamped after [0.0] makes
    [locale_directory()] return [/usr/share/locale], whatever is or is
    not under the per-user data directory. *)
Theorem system_candidate_wins_whatever_the_user_has (env : Os.environ)
    (fs : Os.filesystem) (data_home : string) :
  no_override env fs ->
  Os.Path_is_dir fs data_home = true ->
  qualifies fs "/usr/share" = true ->
  0 < sample_mtime fs "/usr/share" ->
  locale_directory env fs data_home = Ok (Some "/usr/share/locale").
Proof.
  intros Hno Hhome Hq Hm. rewrite locale_directory_compare, Hhome by assumption.
  unfold passes. rewrite Hq. apply Z.ltb_lt in Hm. rewrite Hm. reflexivity.
Qed.

Lemma system_candidate_wins_whatever_the_user_has_witness :
  locale_directory ∅ MoreSamples.newer_system_catalog Samples.user_home
  = Ok (Some "/usr/share/locale").
Proof.
  apply (system_candidate_wins_whatever_the_user_has ∅
           MoreSamples.newer_system_catalog Samples.user_home).
  - apply no_override_without_variables.
  - reflexivity.
  - reflexivity.
  - reflexivity.
Defined.

(** X3. With no override and the data directory there, when the
    system-wide sample does not pass and the per-user one is there,
    readable and stamped after [0.0], [locale_directory()] returns the
    [locale] directory under the data directory. *)
Theorem user_candidate_when_system_fails (env : Os.environ)
    (fs : Os.filesystem) (data_home : string) :
  no_override env fs ->
  Os.Path_is_dir fs data_home = true ->
  passes fs "/usr/share" = false ->
  qualifies fs data_home = true ->
  0 < sample_mtime fs data_home ->
  locale_directory env fs data_home = Ok (Some (Os.join data_home ["locale"])).
Proof.
  intros Hno Hhome Hsys Hq Hm.
  rewrite locale_directory_compare, Hhome, Hsys by assumption.
  unfold passes. rewrite Hq. apply Z.ltb_lt in Hm. rewrite Hm. reflexivity.
Qed.

Lemma user_candidate_when_system_fails_witness :
  locale_directory ∅ MoreSamples.only_user_catalog Samples.user_home
  = Ok (Some "/home/user/.local/share/locale").
Proof.
  apply (user_candidate_when_system_fails ∅ MoreSamples.only_user_catalog
           Samples.user_home).
  - apply no_override_without_variables.
  - reflexivity.
  - reflexivity.
  - reflexivity.
  - reflexivity.
Defined.



(** X5. With no override, a directory that [locale_directory()] returns
    is the [locale] directory of one of the two candidates, and the
    sample catalog under it is a readable regular file: the test of line
    102 on the result then passes. *)
Theorem resolved_directory_holds_sample (env : Os.environ) (fs : Os.filesystem)
    (data_home dir : string) :
  no_override env fs ->
  locale_directory env fs data_home = Ok (Some dir) ->
  (dir = "/usr/share/locale" \/ dir = Os.join data_home ["locale"]) /\
  Os.isfile fs (Os.join dir [sample_translation]) = true /\
  Os.access_R_OK fs (Os.join dir [sample_translation]) = true.
Proof.
  intros Hno. rewrite locale_directory_compare by assumption.
  destruct (Os.Path_is_dir fs data_home); [|discriminate].
  destruct (passes fs "/usr/share") eqn:Hsys.
  - intros [= <-]. split; [by left|].
    unfold passes, qualifies in Hsys.
    apply andb_prop in Hsys as [Hq _]. apply andb_prop in Hq as [Hf Ha].
    split; assumption.
  - destruct (passes fs data_home) eqn:Huser; [|discriminate].
    intros [= <-]. split; [by right|].
    unfold passes, qualifies in Huser.
    apply andb_prop in Huser as [Hq _]. apply andb_prop in Hq as [Hf Ha].
    split; [exact Hf | exact Ha].
Qed.

Lemma resolved_directory_holds_sample_witness :
  Os.isfile MoreSamples.only_user_catalog
    (Os.join "/home/user/.local/share/locale" [sample_translation]) = true.
Proof.
  apply (resolved_directory_holds_sample ∅ MoreSamples.only_user_catalog
           Samples.user_home "/home/user/.local/share/locale").
  - apply no_override_without_variables.
  - reflexivity.
Defined.

(** X6. With no override and the data directory there,
    [locale_directory()] returns what the rule of its docstring selects
    whenever every readable sample is stamped after [0.0] and, if both
    candidates have one, the per-user sample is not the newer. *)
Theorem documented_rule_when_user_not_newer (env : Os.environ)
    (fs : Os.filesystem) (data_home : string) :
  no_override env fs ->
  Os.Path_is_dir fs data_home = true ->
  (qualifies fs data_home = true -> 0 < sample_mtime fs data_home) ->
  (qualifies fs "/usr/share" = true -> 0 < sample_mtime fs "/usr/share") ->
  (qualifies fs data_home = true -> qualifies fs "/usr/share" = true ->
   sample_mtime fs data_home <= sample_mtime fs "/usr/share") ->
  locale_directory env fs data_home
  = Ok (newest_candidate fs data_home "/usr/share").
Proof.
  intros Hno Hhome Hu Hs Hle.
  rewrite locale_directory_compare, Hhome by assumption.
  unfold passes, newest_candidate.
  destruct (qualifies fs data_home) eqn:Hqu, (qualifies fs "/usr/share") eqn:Hqs;
    cbn [andb].
  - specialize (Hs eq_refl). specialize (Hle eq_refl eq_refl).
    apply Z.ltb_lt in Hs. rewrite Hs.
    apply Z.ltb_ge in Hle. rewrite Hle. reflexivity.
  - specialize (Hu eq_refl). apply Z.ltb_lt in Hu. rewrite Hu. reflexivity.
  - specialize (Hs eq_refl). apply Z.ltb_lt in Hs. rewrite Hs. reflexivity.
  - reflexivity.
Qed.

Lemma documented_rule_when_user_not_newer_witness :
  locale_directory ∅ MoreSamples.newer_system_catalog Samples.user_home
  = Ok (newest_candidate MoreSamples.newer_system_catalog Samples.user_home
          "/usr/share").
Proof.
  apply (documented_rule_when_user_not_newer ∅ MoreSamples.newer_system_catalog
           Samples.user_home).
  - apply no_override_without_variables.
  - reflexivity.
  - intros _. reflexivity.
  - intros _. reflexivity.
  - intros _ _. vm_compute. discriminate.
Defined.

End LocaleDirectoryFurther.

(** ** Further properties of the import of the module *)

Section ImportFurther.
Import Raphodo Notions.

(** The import in closed form, by the locale directory found. *)
Lemma module_init_unresolved (io : startup) (underscore : option (string -> string))
    (found : option string) :
  locale_directory (environ io) (files io) (data_home io) = Ok found ->
  (forall dir, found = Some dir ->
     Os.isfile (files io) (Os.join dir [sample_translation]) = false) ->
  module_init io underscore =
  Ok {| localedir := found; lang := None; lang_installed := false;
        builtins_underscore := Some no_translation_performed |}.
Proof.
  intros Hdir Hfile. unfold module_init. rewrite Hdir. cbn [result_bind].
  destruct found as [dir|]; [rewrite (Hfile dir eq_refl)|]; reflexivity.
Qed.

Lemma module_init_resolved (io : startup) (underscore : option (string -> string))
    (dir : string) :
  locale_directory (environ io) (files io) (data_home io) = Ok (Some dir) ->
  Os.isfile (files io) (Os.join dir [sample_translation]) = true ->
  module_init io underscore =
  match choose_language io with
  | Ok language =>
      match translation io i18n_domain dir [language] with
      | Ok gnulang =>
          Ok {| localedir := Some dir; lang := language; lang_installed := true;
                builtins_underscore := Some gnulang |}
      | Raise _ =>
          Ok {| localedir := Some dir; lang := language; lang_installed := false;
                builtins_underscore := Some no_translation_performed |}
      end
  | Raise e => Raise e
  end.
Proof.
  intros Hdir Hfile. unfold module_init. rewrite Hdir. cbn [result_bind].
  rewrite Hfile. destruct (choose_language io) as [language|e]; [|reflexivity].
  cbn [result_bind]. unfold try_install. cbn [Raphodo.lang].
  destruct (translation io i18n_domain dir [language]) as [gnulang|e];
    [reflexivity|]. destruct e; reflexivity.
Qed.

(** X7. Whenever the import completes, the builtin [_] is defined, so
    every lookup answers; [localedir] is what [locale_directory()]
    returned; with [lang_installed] false the builtin is
    [no_translation_performed], and with [lang_installed] true a
    directory was found, its sample catalog is a file, and the builtin
    is the lookup of the catalog that [gettext.translation] loaded for
    that directory and [lang]. *)
Theorem completed_import_defines_lookup (io : startup)
    (underscore : option (string -> string)) (g : globals) :
  module_init io underscore = Ok g ->
  locale_directory (environ io) (files io) (data_home io) = Ok (localedir g) /\
  (exists f, builtins_underscore g = Some f /\
             forall s, translate g s = Some (f s)) /\
  (lang_installed g = false ->
   builtins_underscore g = Some no_translation_performed) /\
  (lang_installed g = true ->
   exists dir gnulang,
     localedir g = Some dir /\
     Os.isfile (files io) (Os.join dir [sample_translation]) = true /\
     translation io i18n_domain dir [lang g] = Ok gnulang /\
     builtins_underscore g = Some gnulang).
Proof.
  destruct (locale_directory (environ io) (files io) (data_home io))
    as [found|e] eqn:Hdir.
  2: { unfold module_init. rewrite Hdir. discriminate. }
  destruct found as [dir|].
  - destruct (Os.isfile (files io) (Os.join dir [sample_translation])) eqn:Hfile.
    + rewrite (module_init_resolved io underscore dir Hdir Hfile).
      destruct (choose_language io) as [language|e]; [|discriminate].
      destruct (translation io i18n_domain dir [language]) as [gnulang|e] eqn:Hload;
        intros [= <-]; cbn; repeat split; eauto; try discriminate.
      intros _. exists dir, gnulang. repeat split; assumption.
    + rewrite (module_init_unresolved io underscore (Some dir) Hdir)
        by (intros d [= <-]; exact Hfile).
      intros [= <-]. cbn. repeat split; eauto; discriminate.
  - rewrite (module_init_unresolved io underscore None Hdir) by discriminate.
    intros [= <-]. cbn. repeat split; eauto; discriminate.
Qed.

Lemma completed_import_defines_lookup_witness :
  exists f, builtins_underscore
              {| localedir := Some "/usr/share/locale"; lang := Some "fr";
                 lang_installed := true;
                 builtins_underscore := Some MoreSamples.french_lookup |} = Some f /\
            forall s, translate
                        {| localedir := Some "/usr/share/locale"; lang := Some "fr";
                           lang_installed := true;
                           builtins_underscore := Some MoreSamples.french_lookup |} s
                      = Some (f s).
Proof.
  apply (completed_import_defines_lookup MoreSamples.french_startup None).
  reflexivity.
Defined.

(** X8. The import raises in two cases only: [locale_directory()]
    raises, or a directory is found with its sample catalog, the
    preference for the language is empty and
    [locale.getdefaultlocale()] raises, which is outside the [try]; the
    exception that comes out is theirs. A failing load of the catalog
    never makes the import raise. *)
Theorem import_raises_iff (io : startup) (underscore : option (string -> string))
    (e : exception) :
  module_init io underscore = Raise e <->
  locale_directory (environ io) (files io) (data_home io) = Raise e \/
  (exists dir,
     locale_directory (environ io) (files io) (data_home io) = Ok (Some dir) /\
     Os.isfile (files io) (Os.join dir [sample_translation]) = true /\
     settings_language io = "" /\
     getdefaultlocale io = Raise e).
Proof.
  destruct (locale_directory (environ io) (files io) (data_home io))
    as [found|e'] eqn:Hdir.
  2: { unfold module_init. rewrite Hdir. cbn [result_bind]. split.
       - intros [= <-]. by left.
       - intros [[= <-]|(dir & H & _)]; [reflexivity | discriminate H]. }
  destruct found as [dir|].
  - destruct (Os.isfile (files io) (Os.join dir [sample_translation])) eqn:Hfile.
    + rewrite (module_init_resolved io underscore dir Hdir Hfile).
      unfold choose_language.
      destruct (String.eqb (settings_language io) "") eqn:Hpref.
      * apply String.eqb_eq in Hpref.
        destruct (getdefaultlocale io) as [[language encoding]|e'];
          cbn [result_bind].
        -- split.
           ++ destruct (translation io i18n_domain dir [language]); discriminate.
           ++ intros [H|(d & _ & _ & _ & H)]; discriminate H.
        -- split.
           ++ intros [= <-]. right. exists dir. repeat split; assumption.
           ++ intros [H|(d & _ & _ & _ & [= <-])]; [discriminate H | reflexivity].
      * apply String.eqb_neq in Hpref. split.
        -- destruct (translation io i18n_domain dir [Some (settings_language io)]);
             discriminate.
        -- intros [H|(d & _ & _ & H & _)]; [discriminate H | contradiction].
    + rewrite (module_init_unresolved io underscore (Some dir) Hdir)
        by (intros d [= <-]; exact Hfile).
      split; [discriminate|].
      intros [H|(d & [= <-] & H & _)]; [discriminate H | congruence].
  - rewrite (module_init_unresolved io underscore None Hdir) by discriminate.
    split; [discriminate|].
    intros [H|(d & H & _)]; discriminate H.
Qed.

Lemma import_raises_iff_witness :
  module_init MoreSamples.unknown_locale_startup None
  = Raise (OtherException "ValueError").
Proof.
  apply (import_raises_iff MoreSamples.unknown_locale_startup None
           (OtherException "ValueError")).
  right. exists "/usr/share/locale". repeat split.
Defined.

(** X9. When a directory is found with its sample catalog and
    [gettext.translation] loads a catalog for it and the chosen
    language, the import completes with [lang_installed] true, [lang]
    the chosen language and the builtin [_] the lookup of that catalog:
    [no_translation_performed] is not installed over it. *)
Theorem loaded_catalog_is_installed (io : startup)
    (underscore : option (string -> string)) (dir : string)
    (language : option string) (gnulang : string -> string) :
  locale_directory (environ io) (files io) (data_home io) = Ok (Some dir) ->
  Os.isfile (files io) (Os.join dir [sample_translation]) = true ->
  choose_language io = Ok language ->
  translation io i18n_domain dir [language] = Ok gnulang ->
  module_init io underscore =
  Ok {| localedir := Some dir; lang := language; lang_installed := true;
        builtins_underscore := Some gnulang |}.
Proof.
  intros Hdir Hfile Hlang Hload.
  rewrite (module_init_resolved io underscore dir Hdir Hfile), Hlang, Hload.
  reflexivity.
Qed.

Lemma loaded_catalog_is_installed_witness :
  module_init MoreSamples.french_startup None =
  Ok {| localedir := Some "/usr/share/locale"; lang := Some "fr";
        lang_installed := true;
        builtins_underscore := Some MoreSamples.french_lookup |}.
Proof.
  apply (loaded_catalog_is_installed MoreSamples.french_startup None
           "/usr/share/locale" (Some "fr") MoreSamples.french_lookup);
    reflexivity.
Defined.

(** X10. With a language set in the preferences,
    [locale.getdefaultlocale()] is not consulted: the import gives the
    same outcome whatever it would answer or raise. *)
Theorem preference_overrides_default_locale (io : startup)
    (underscore : option (string -> string))
    (r : result (option string * option string)) :
  settings_language io <> "" ->
  module_init (with_default_locale r io) underscore = module_init io underscore.
Proof.
  intros Hpref. apply String.eqb_neq in Hpref.
  unfold module_init, choose_language, try_install, with_default_locale.
  cbn [environ files data_home settings_language getdefaultlocale translation].
  rewrite Hpref. reflexivity.
Qed.

Lemma preference_overrides_default_locale_witness :
  module_init
    (with_default_locale (Ok (Some "en_US", Some "UTF-8")) MoreSamples.french_startup)
    None
  = module_init MoreSamples.french_startup None.
Proof.
  apply (preference_overrides_default_locale MoreSamples.french_startup None).
  discriminate.
Defined.

(** X11. When no directory is found, or the sample catalog is not a
    file under the one found (as in a snap without it), neither the
    preferences nor the default locale nor [gettext.translation] has a
    say: two starts with the same environment, filesystem and data
    directory complete alike, with [lang] left [None], [lang_installed]
    false and the builtin [_] set to [no_translation_performed]. *)
Theorem missing_sample_skips_the_load (io io' : startup)
    (underscore underscore' : option (string -> string)) (found : option string) :
  environ io' = environ io ->
  files io' = files io ->
  data_home io' = data_home io ->
  locale_directory (environ io) (files io) (data_home io) = Ok found ->
  (forall dir, found = Some dir ->
     Os.isfile (files io) (Os.join dir [sample_translation]) = false) ->
  module_init io underscore =
    Ok {| localedir := found; lang := None; lang_installed := false;
          builtins_underscore := Some no_translation_performed |} /\
  module_init io' underscore' = module_init io underscore.
Proof.
  intros He Hf Hd Hdir Hfile.
  rewrite (module_init_unresolved io underscore found Hdir Hfile).
  split; [reflexivity|].
  apply module_init_unresolved; rewrite He, Hf, Hd || rewrite Hf; assumption.
Qed.

Lemma missing_sample_skips_the_load_witness :
  module_init MoreSamples.snap_startup None =
  Ok {| localedir := Some "/usr/lib/locale"; lang := None; lang_installed := false;
        builtins_underscore := Some no_translation_performed |}.
Proof.
  apply (missing_sample_skips_the_load MoreSamples.snap_startup
           MoreSamples.snap_startup None None (Some "/usr/lib/locale"));
    reflexivity.
Defined.

End ImportFurther.

(** ** Further properties of the toggle panel *)

Section TogglePanelFurther.
Import Qt ToggleView Notions.

Lemma perform_eq (c : call) (v : QToggleView) (t : toolkit) :
  exec (perform c) (v, t) =
  (set_valueChanged
     (valueChanged v ++ [switch_value (toggleSwitch (panel_after c v))])
     (panel_after c v),
   shown_after_toggle (panel_after c v) t).
Proof.
  destruct c as [value|isOn|w]; cbn [perform panel_after].
  - apply toggleSwitch_change_eq.
  - unfold setOn, toggleSwitch_setOn. apply toggleSwitch_change_eq.
  - rewrite addWidget_eq. reflexivity.
Qed.



Lemma shown_after_toggle_again (v : QToggleView) (t : toolkit) :
  shown_after_toggle v (shown_after_toggle v t) = shown_after_toggle v t.
Proof.
  unfold shown_after_toggle.
  destruct (content v) as [c|]; [|reflexivity].
  destruct (alternateWidget v) as [a|]; unfold setVisible; cbn; f_equal;
    apply map_eq; intros i; rewrite !lookup_insert;
    repeat case_decide; congruence.
Qed.



Lemma shown_after_toggle_emitted (l : list bool) (v : QToggleView) (t : toolkit) :
  shown_after_toggle (set_valueChanged l v) t = shown_after_toggle v t.
Proof. reflexivity. Qed.

(** X13. A transition run again changes nothing more in the toolkit:
    [toggled] after [toggled], and a [setOn] repeated with the same
    value, leave every visibility as the first run set it. *)
Theorem repeated_transition_is_idle (s : state) (value value' : Z) (isOn : bool) :
  snd (exec (toggled value') (exec (toggled value) s))
    = snd (exec (toggled value) s) /\
  snd (exec (setOn isOn) (exec (setOn isOn) s)) = snd (exec (setOn isOn) s).
Proof.
  destruct s as [v t]. split.
  - unfold exec. rewrite !toggled_eq. cbn [fst snd]. rewrite toggled_eq.
    cbn [fst snd]. rewrite shown_after_toggle_emitted.
    apply shown_after_toggle_again.
  - unfold setOn, toggleSwitch_setOn. rewrite !toggleSwitch_change_eq.
    cbn [snd]. exact (shown_after_toggle_again (set_switch_value isOn v) t).
Qed.

Lemma perform_length (c : call) (s : state) :
  valueChanged (fst (exec (perform c) s))
  = valueChanged (fst s) ++ [eval on (exec (perform c) s)].
Proof. destruct s as [v t]. rewrite perform_eq. reflexivity. Qed.

(** X14. On a panel as constructed, after any sequence of changes of
    the toggle control, [setOn] calls and [addWidget] calls, the number
    of [valueChanged] emissions is one more than the number of calls,
    and the last emission carries the state the toggle is in: an
    observer that keeps the last value is in step with [on()]. *)
Theorem emissions_follow_calls (dark light : string) (is_dark : bool)
    (a : arguments) (t : toolkit) (cs : list call) :
  let s := perform_all cs (__init__ dark light is_dark a t) in
  length (valueChanged (fst s)) = S (length cs) /\
  last (valueChanged (fst s)) = Some (eval on s).
Proof.
  induction cs as [|c cs IH] using rev_ind; cbv zeta.
  - cbn [perform_all fold_left length]. rewrite init_valueChanged.
    split; [reflexivity|]. cbn [last]. f_equal. symmetry. apply init_switch.
  - rewrite perform_all_snoc, perform_length. cbv zeta in IH.
    destruct IH as [IH _]. split.
    + rewrite !length_app, IH. cbn [length]. lia.
    + apply last_snoc.
Qed.

Lemma perform_switch (c : call) (s : state) :
  eval on (exec (perform c) s) = last_switch [c] (eval on s) /\
  content (fst (exec (perform c) s)) = last_content [c] (content (fst s)).
Proof.
  destruct s as [v t]. rewrite perform_eq. destruct c; split; reflexivity.
Qed.

(** X15. After a sequence of calls the toggle is in the state the last
    [setOn] or change of the control gave, the initial one if there was
    none, whatever [addWidget] calls lie between; the content is the
    widget of the last [addWidget], the initial content if there was
    none; and the placeholder is the one the panel started with. *)
Theorem state_after_calls (cs : list call) (s : state) :
  eval on (perform_all cs s) = last_switch cs (eval on s) /\
  content (fst (perform_all cs s)) = last_content cs (content (fst s)) /\
  alternateWidget (fst (perform_all cs s)) = alternateWidget (fst s).
Proof.
  split; [|split; [|apply perform_all_alternate]];
    induction cs as [|c cs IH] using rev_ind; try reflexivity;
    rewrite perform_all_snoc; unfold last_switch, last_content;
    rewrite fold_left_app; cbn [fold_left];
    destruct (perform_switch c (perform_all cs s)) as [Hs Hc].
  - rewrite Hs. unfold last_switch at 1. cbn [fold_left]. rewrite IH.
    unfold last_switch. reflexivity.
  - rewrite Hc. unfold last_content at 1. cbn [fold_left]. rewrite IH.
    unfold last_content. reflexivity.
Qed.

Lemma minimumHeight_eq (v : QToggleView) (t : toolkit) :
  minimumHeight (v, t) =
  if switch_value (toggleSwitch v)
  then (height (Qt.minimumSize (updateGeometry t)), (v, updateGeometry t))
  else (height (geometry t (header v)), (v, t)).
Proof.
  cbv beta iota zeta delta
    [minimumHeight toggleSwitch_on bind attr toolkit_get toolkit_do fst snd].
  destruct (switch_value (toggleSwitch v)); reflexivity.
Qed.

Lemma minimumSize_eq (v : QToggleView) (t : toolkit) :
  minimumSize (v, t) =
  ({| width := width (Qt.minimumSize t);
      height := fst (minimumHeight (v, t)) |},
   snd (minimumHeight (v, t))).
Proof.
  cbv beta iota zeta delta [minimumSize bind toolkit_get ret fst snd].
  destruct (minimumHeight (v, t)) as [h s']. reflexivity.
Qed.

(** X16. While the toggle is on, [minimumHeight()] calls
    [updateGeometry()] once and returns the minimum height the layout
    gives after it; [minimumSize()] pairs that height with the width the
    layout gave before the update, and also updates the geometry once. *)
Theorem expanded_minimum_size (s : state) :
  eval on s = true ->
  let n := geometry_updates (snd s) in
  eval minimumHeight s = height (layout_minimumSize (snd s) (S n)) /\
  exec minimumHeight s = (fst s, updateGeometry (snd s)) /\
  eval minimumSize s =
    {| width := width (layout_minimumSize (snd s) n);
       height := height (layout_minimumSize (snd s) (S n)) |} /\
  geometry_updates (snd (exec minimumSize s)) = S n.
Proof.
  destruct s as [v t]. intros Hon.
  unfold eval, on, toggleSwitch_on, attr in Hon. cbn [fst] in Hon.
  cbv zeta. unfold eval, exec.
  rewrite minimumSize_eq, minimumHeight_eq, Hon. repeat split.
Qed.

Lemma expanded_minimum_size_witness :
  eval minimumSize MoreSamples.expanded_panel = {| width := 300; height := 181 |}.
Proof.
  destruct (expanded_minimum_size MoreSamples.expanded_panel eq_refl)
    as (_ & _ & Hsize & _).
  exact Hsize.
Defined.

(** X17. The size queries [minimumHeight()], [minimumSize()] and
    [sizeHint()] never change the panel object, emit nothing and change
    no visibility; [sizeHint()] answers what [minimumSize()] answers;
    and while the toggle is off they leave the toolkit as it is, no
    geometry update being asked for. *)
Theorem size_queries_leave_panel (s : state) :
  fst (exec minimumHeight s) = fst s /\
  fst (exec minimumSize s) = fst s /\
  visible (snd (exec minimumHeight s)) = visible (snd s) /\
  visible (snd (exec minimumSize s)) = visible (snd s) /\
  sizeHint s = minimumSize s /\
  (eval on s = false ->
   exec minimumHeight s = s /\ exec minimumSize s = s).
Proof.
  destruct s as [v t]. unfold exec, eval, sizeHint.
  rewrite minimumSize_eq, minimumHeight_eq.
  unfold on, toggleSwitch_on, attr. cbn [fst snd].
  destruct (switch_value (toggleSwitch v)); repeat split; discriminate.
Qed.

Lemma size_queries_leave_panel_witness :
  exec minimumSize Samples.collapsed_panel = Samples.collapsed_panel.
Proof.
  destruct (size_queries_leave_panel Samples.collapsed_panel)
    as (_ & _ & _ & _ & _ & Hoff).
  apply Hoff. reflexivity.
Defined.

(** X18. On a panel constructed without [display_alternate] there is
    never a placeholder, and after any sequence of changes of the toggle
    control, [setOn] calls and [addWidget] calls the content, when one
    is attached, shows exactly when the toggle is on, whichever widget
    it is. *)
Theorem plain_panel_content_follows_toggle (dark light : string)
    (is_dark : bool) (a : arguments) (t : toolkit) (cs : list call) :
  display_alternate a = false ->
  let s := perform_all cs (__init__ dark light is_dark a t) in
  alternateWidget (fst s) = None /\
  forall c : widget,
    content (fst s) = Some c -> visible (snd s) !! c = Some (eval on s).
Proof.
  intros Hplain s.
  assert (Ha : alternateWidget (fst s) = None).
  { subst s. rewrite perform_all_alternate, init_alternate, Hplain. reflexivity. }
  split; [exact Ha|].
  subst s. destruct cs as [|call cs _] using rev_ind.
  - intros c Hc. cbn [perform_all fold_left] in Hc.
    rewrite init_content in Hc. discriminate.
  - rewrite perform_all_snoc in *.
    destruct (perform_all cs (__init__ dark light is_dark a t)) as [v t'].
    rewrite perform_eq in *. cbn [fst snd] in *.
    intros c Hc.
    change (alternateWidget (panel_after call v) = None) in Ha.
    change (content (panel_after call v) = Some c) in Hc.
    rewrite shown_after_toggle_content with (c := c); [reflexivity|exact Hc|].
    rewrite Ha. discriminate.
Qed.

Lemma plain_panel_content_follows_toggle_witness :
  let s := perform_all [AddWidget 0%nat; SetOn false]
             (__init__ "#4d4d4d" "#e0e0e0" false MoreSamples.plain_arguments
                Samples.one_widget) in
  alternateWidget (fst s) = None /\
  visible (snd s) !! 0%nat = Some false.
Proof.
  intros s.
  destruct (plain_panel_content_follows_toggle "#4d4d4d" "#e0e0e0" false
              MoreSamples.plain_arguments Samples.one_widget
              [AddWidget 0%nat; SetOn false] eq_refl) as [Ha Hc].
  fold s in Ha, Hc. split; [exact Ha|]. exact (Hc 0%nat eq_refl).
Defined.

End TogglePanelFurther.
